(* ===== verification/_CoqProject ===== *)
-Q . S2P
Prelude.v
RangeLoop.v
Release.v
APIResource.v
APIVersion.v
APIGroup.v
Timeline.v
Queries.v
