(* ===== verification/Prelude.v ===== *)
(** * kube-api-timeline: a verification development of [pkg/timeline]

    The repository's only Go package, [src/pkg/timeline/types.go], is the
    data model that the rest of the tool (ingestion of Kubernetes API
    discovery data, HTML rendering) builds once and then reads.  It has four
    record types and four read-only accessors:

    - [Timeline] (lines 8-11) holds the API groups and the release
      metadata; [Timeline.ReleaseMetadata] (lines 24-32) scans [Releases]
      for the first entry whose [Version] equals its argument and returns
      the zero [ReleaseMetadata{}] when there is none;
      [Timeline.HasRelease] (lines 34-36) calls it and tests the returned
      [Version] against [""].
    - [ReleaseMetadata] (lines 13-22): version string, four lifecycle
      flags, a release date ([time.Time]), an optional end-of-life date
      ([*time.Time]) and the latest patch version.
    - [APIGroup] (lines 38-44) with [PreferredVersion] (lines 48-50), the
      Go map index [o.PreferredVersions[release]], [""] for an absent key.
    - [APIVersion] (lines 52-58) and [APIResource] (lines 70-80), each with
      a [HasRelease] (lines 60-68 and 82-90) that scans its [Releases]
      slice for an exact string match.

    The components interact only by containment (a [Timeline] owns its
    groups, a group its versions, a version its resources) and by release
    identifiers: the [Releases] slices of versions and resources name
    entries of [Timeline.Releases] by their [Version] string.  Nothing in
    the source writes to a value after construction; the accessors take
    pointer receivers but only read through them and return values, so the
    model is pure: a Go value is a Rocq value, a method a function.

    ** Layout (files in dependency order, each opening with its own summary)

    - [Prelude.v] (this file): Go zero values as the class [GoZero]; the
      map index [m.[k]] ([map_index]: the value or the zero); the
      [time.Time] stand-in [Time]; string-equality lemmas ([String.eqb] is
      Go's [==] on strings); list helpers; the tactic
      [decide_concrete]; the hint database [timeline].
    - [RangeLoop.v]: the loop shape the three scans share,
      [for _, x := range s { if p(x) { return f(x) } }; return d], as the
      Fixpoint [range_return].  Generic lemmas: the first match is
      returned and what follows it is never read, no match gives [d],
      agreement with stdpp's [list_find], invariance under permutation
      when all matches agree, membership for the boolean scans.
    - [Release.v], Module [Release]: the record [ReleaseMetadata] and its
      zero [ReleaseMetadata_zero].
    - [APIResource.v], Module [Resource]: [APIResource], [HasRelease].
    - [APIVersion.v], Module [Version]: [APIVersion], [HasRelease].
    - [APIGroup.v], Module [Group]: [APIGroup], [PreferredVersion].
    - [Timeline.v], Module [TL]: [Timeline], [ReleaseMetadata],
      [HasRelease]; the abstract specification [find_release] (the
      explicit "found" result §9 of the spec asks for), the lookup table
      [release_index] (the index §9 allows as an optimisation) and the
      invariant [releases_wf] (unique, non-empty versions).
    - [Queries.v]: the interface [HasReleaseQuery] ("present in release
      x" is membership in a list), implemented by the three [HasRelease]
      methods, with a [Proper] instance for setoid rewriting by
      release-set equivalence.

    ** What the theorems show (claim ids C1-C16 in the doc comments)
    - functional behaviour of every accessor on every branch: the first
      match wins (C1), the zero value and [false] when nothing matches
      (C2), [HasRelease] as "non-empty and present" (C3, C15), membership
      for the version and resource scans (C7, C8), the map index with its
      [""] default (C9, C10);
    - the sentinel: [HasRelease ""] is [false] on every timeline (C4),
      also when a release with an empty version is stored, which
      [ReleaseMetadata ""] returns (the Example
      [empty_version_release_hidden] shows one);
    - refinement: the scan is the option-valued specification with the
      zero for [None] (C5) and the Go index of the lookup table (C6);
      roundtrip by a release's own version under uniqueness (C11); the
      result is the zero or a matching member (C12); reordering does not
      matter under uniqueness (C13), nor for version scans (C16);
      appending releases keeps every answer for a version already present,
      the early return never reading past the first match (C14).

    No fuel is used: every loop of the source is a [range] over a slice,
    modelled by structural recursion on the list, so every accessor is a
    total function.

    ** Not modelled
    - Go's [time] package: [time.Time] is a record of the two integer
      fields of Go's representation (the location pointer is left out); no
      operation of the package is called by the source.
    - Ingestion, rendering and the CLI: not part of [src/].

    ** Plan for later work
    - the lookup table as [list_to_map] of the (version, release) pairs
      under uniqueness, and its size;
    - properties of whole timelines through the interface: presence of a
      group, version or resource in a release, and the monotonicity of
      these answers in the release lists. *)

From stdpp Require Export base list gmap strings.
From Stdlib Require Export ZArith.
From Stdlib Require String.

Declare Scope go_scope.
Delimit Scope go_scope with go.

(** ** Go zero values *)

(** The value a Go variable of a type holds before assignment, returned by
    a map index on an absent key and by a composite literal [T{}]. *)
Class GoZero (A : Type) := go_zero : A.
#[export] Hint Mode GoZero ! : typeclass_instances.

#[export] Instance GoZero_string : GoZero string := ""%string.
#[export] Instance GoZero_bool : GoZero bool := false.
(** A nil pointer. *)
#[export] Instance GoZero_option {A} : GoZero (option A) := @None A.
(** A nil slice. *)
#[export] Instance GoZero_list {A} : GoZero (list A) := @nil A.
(** A nil map: indexing it behaves as indexing an empty map. *)
#[export] Instance GoZero_gmap {V} : GoZero (gmap string V) := (∅ : gmap string V).

(** [time.Time] is [struct { wall uint64; ext int64; loc *Location }];
    the location is not modelled. *)
Record Time := mkTime { wall : Z; ext : Z }.
#[export] Instance GoZero_Time : GoZero Time := mkTime 0 0.
#[export] Instance Time_eq_dec : EqDecision Time.
Proof. solve_decision. Defined.

(** ** Go map index [m[k]] on a [map[string]V] *)

Definition map_index {V} `{GoZero V} (m : gmap string V) (k : string) : V :=
  default go_zero (m !! k).

Notation "m .[ k ]" := (map_index m k) (at level 1, format "m .[ k ]") : go_scope.
Open Scope go_scope.

Section map_index.
Context {V : Type} `{GoZero V}.

Lemma map_index_Some (m : gmap string V) k v : m !! k = Some v → m.[k] = v.
Proof. intros Hk. unfold map_index. by rewrite Hk. Qed.

Lemma map_index_None (m : gmap string V) k : m !! k = None → m.[k] = go_zero.
Proof. intros Hk. unfold map_index. by rewrite Hk. Qed.

End map_index.

(** ** Go string comparison [a == b] *)

(** Go compares strings byte by byte; [String.eqb] compares the character
    lists, which is the same relation. *)
Lemma str_eqb_true (a b : string) : String.eqb a b = true ↔ a = b.
Proof. apply String.eqb_eq. Qed.

Lemma str_eqb_false (a b : string) : String.eqb a b = false ↔ a ≠ b.
Proof. apply String.eqb_neq. Qed.

Lemma str_eqb_refl (a : string) : String.eqb a a = true.
Proof. by apply str_eqb_true. Qed.

(** Go's [a != b]. *)
Lemma str_neqb_true (a b : string) : negb (String.eqb a b) = true ↔ a ≠ b.
Proof. rewrite negb_true_iff. apply str_eqb_false. Qed.

(** ** Lists *)

(** Under [NoDup (f <$> l)], [f] identifies the elements of [l]. *)
Lemma NoDup_fmap_agree {A B} (f : A → B) (l : list A) x y :
  NoDup (f <$> l) → x ∈ l → y ∈ l → f x = f y → x = y.
Proof.
  induction l as [|z l IH]; simpl; intros Hnd Hx Hy Hf; [by apply elem_of_nil in Hx|].
  apply NoDup_cons in Hnd as [Hz Hnd].
  apply elem_of_cons in Hx as [->|Hx], Hy as [->|Hy]; auto; exfalso; apply Hz;
    apply list_elem_of_fmap; [exists y|exists x]; auto.
Qed.

(** Closes a decidable proposition about concrete data by evaluating its
    decision procedure. *)
Ltac decide_concrete := apply (bool_decide_unpack _); vm_compute; exact I.

Create HintDb timeline discriminated.
#[export] Hint Resolve map_index_Some map_index_None : timeline.
