(* ===== verification/RangeLoop.v ===== *)
(** * The early-return [range] loop of the Go source

    All three scanning methods of [types.go] have the shape
    [for _, x := range s { if p(x) { return f(x) } }; return d].
    [range_return] is that loop as structural recursion on the slice (a
    [range] over a slice always terminates, and so does the Fixpoint).
    The lemmas give its functional behaviour, which the components reuse:
    the first match is returned and nothing after it is read, [d] when
    nothing matches, agreement with stdpp's [list_find], invariance under
    permutation when all matches agree, and membership for the boolean
    scans. *)

From S2P Require Import Prelude.

Section range_loop.
Context {A B : Type} (p : A → bool) (f : A → B) (d : B).

(** The loop as a recursive function on the slice. *)
Fixpoint range_return (s : list A) : B :=
  match s with
  | [] => d
  | x :: s' => if p x then f x else range_return s'
  end.

(** *** Functional behaviour of the Fixpoint *)

Lemma range_return_app_nomatch (pre s : list A) :
  Forall (λ y, p y = false) pre → range_return (pre ++ s) = range_return s.
Proof. induction 1 as [|y pre Hy _ IH]; simpl; [done|]. by rewrite Hy. Qed.

Lemma range_return_first (pre post : list A) (x : A) :
  Forall (λ y, p y = false) pre → p x = true →
  range_return (pre ++ x :: post) = f x.
Proof. intros Hpre Hx. rewrite range_return_app_nomatch by done. simpl. by rewrite Hx. Qed.

(** Once some element of [s] matches, what follows [s] is never read. *)
Lemma range_return_app_match (s t : list A) :
  (∃ x, x ∈ s ∧ p x = true) → range_return (s ++ t) = range_return s.
Proof.
  induction s as [|x s IH]; simpl; intros (y & Hy & Hpy); [by apply elem_of_nil in Hy|].
  destruct (p x) eqn:Hx; [done|]. apply IH.
  apply elem_of_cons in Hy as [->|Hy]; [congruence|eauto].
Qed.

Lemma range_return_none (s : list A) :
  Forall (λ y, p y = false) s → range_return s = d.
Proof. intros Hs. rewrite <-(app_nil_r s), range_return_app_nomatch by done. done. Qed.

(** The Fixpoint agrees with stdpp's [list_find] on any predicate the
    test decides. *)
Lemma range_return_list_find (P : A → Prop) `{∀ x, Decision (P x)} (s : list A) :
  (∀ x, p x = true ↔ P x) →
  range_return s =
    match list_find P s with Some (_, x) => f x | None => d end.
Proof.
  intros Hp. induction s as [|x s IH]; simpl; [done|].
  case_decide as Hx; [by rewrite (proj2 (Hp x) Hx)|].
  destruct (p x) eqn:Hpx; [by apply Hp in Hpx|].
  rewrite IH. by destruct (list_find _ s) as [[]|].
Qed.

Lemma range_return_cases (s : list A) :
  (range_return s = d ∧ Forall (λ y, p y = false) s) ∨
  (∃ x, x ∈ s ∧ p x = true ∧ range_return s = f x).
Proof.
  induction s as [|x s [[IH Hs]|(y & Hy & Hpy & IH)]]; simpl.
  - left. by split.
  - destruct (p x) eqn:Hx.
    + right. exists x. split_and!; [apply elem_of_cons; by left|done|done].
    + left. by split; [|constructor].
  - right. destruct (p x) eqn:Hx.
    + exists x. split_and!; [apply elem_of_cons; by left|done|done].
    + exists y. split_and!; [apply elem_of_cons; by right|done|done].
Qed.

(** Reordering the slice does not change the result when all matching
    elements give the same result. *)
Lemma range_return_perm (s s' : list A) :
  (∀ x y, x ∈ s → y ∈ s → p x = true → p y = true → f x = f y) →
  s ≡ₚ s' → range_return s = range_return s'.
Proof.
  intros Hagree Hperm.
  destruct (range_return_cases s) as [[-> Hs]|(x & Hx & Hpx & ->)],
    (range_return_cases s') as [[-> Hs']|(y & Hy & Hpy & ->)]; [done| | |].
  - rewrite Forall_forall in Hs. rewrite <-Hperm in Hy. by rewrite Hs in Hpy.
  - rewrite Forall_forall in Hs'. rewrite Hperm in Hx. by rewrite Hs' in Hpx.
  - rewrite <-Hperm in Hy. by apply Hagree.
Qed.

End range_loop.

(** *** Loops that return [true] on a match and [false] after the slice *)

Lemma range_return_exists {A} (p : A → bool) (s : list A) :
  range_return p (λ _, true) false s = true ↔ ∃ y, y ∈ s ∧ p y = true.
Proof.
  induction s as [|x s IH]; simpl.
  - split; [done|]. intros (y & Hy & _). by apply elem_of_nil in Hy.
  - destruct (p x) eqn:Hx.
    + split; [intros _; exists x; split; [apply elem_of_cons; by left|done]|done].
    + rewrite IH. split; intros (y & Hy & Hpy); exists y; split; try done.
      * apply elem_of_cons. by right.
      * apply elem_of_cons in Hy as [->|Hy]; [congruence|done].
Qed.

(** A [range] over a string slice that returns [true] on [r == x] decides
    membership of [x]. *)
Lemma range_contains_iff (s : list string) (x : string) :
  range_return (λ r, String.eqb r x) (λ _, true) false s = true ↔ x ∈ s.
Proof.
  rewrite range_return_exists. split.
  - intros (y & Hy & Heq). apply str_eqb_true in Heq. by subst.
  - intros Hx. exists x. split; [done|apply str_eqb_refl].
Qed.
