(* ===== verification/Release.v ===== *)
(** * [ReleaseMetadata]: one release of the tracked software

    The record of [types.go] lines 13-22 and its Go zero value
    [ReleaseMetadata{}], which [Timeline.ReleaseMetadata] returns when no
    release matches (line 31) and which [Timeline.HasRelease] detects by
    its empty [Version]. *)

From S2P Require Import Prelude.

Module Release.

(** [type ReleaseMetadata struct]: [EndOfLifeDate] is a [*time.Time],
    [None] being the nil pointer. *)
Record ReleaseMetadata := mkReleaseMetadata {
  Version : string;
  Released : bool;
  Supported : bool;
  Archived : bool;
  HasDocs : bool;
  ReleaseDate : Time;
  EndOfLifeDate : option Time;
  LatestVersion : string
}.

(** The composite literal [ReleaseMetadata{}]: every field at its zero. *)
Definition ReleaseMetadata_zero : ReleaseMetadata :=
  mkReleaseMetadata go_zero go_zero go_zero go_zero go_zero go_zero go_zero go_zero.

#[global] Instance GoZero_ReleaseMetadata : GoZero ReleaseMetadata := ReleaseMetadata_zero.

#[global] Instance ReleaseMetadata_eq_dec : EqDecision ReleaseMetadata.
Proof. solve_decision. Defined.

End Release.
