(* ===== verification/APIResource.v ===== *)
(** * [APIResource]: one resource kind of an API version

    The record of [types.go] lines 70-80 and its method [HasRelease]
    (lines 82-90), a [range] over [Releases] returning [true] on the first
    exact match.  [Scopes] is a [map[string]string], modelled as a
    [gmap]; no method of the source reads it. *)

From S2P Require Import Prelude RangeLoop.

Module Resource.

Record APIResource := mkAPIResource {
  Kind : string;
  Singular : string;
  Plural : string;
  Archived : bool;
  Scopes : gmap string string;
  Releases : list string;
  ReleasesOfInterest : list string;
  Description : string;
  DocRelease : string
}.

#[global] Instance APIResource_eq_dec : EqDecision APIResource.
Proof. solve_decision. Defined.

(** [for _, r := range o.Releases { if r == release { return true } }
    return false] *)
Definition HasRelease (o : APIResource) (release : string) : bool :=
  range_return (λ r, String.eqb r release) (λ _, true) false o.(Releases).

(** C8: [HasRelease] answers [true] exactly for the release strings that
    occur, by exact string equality, in the resource's [Releases]. *)
Theorem APIResource_HasRelease_iff (o : APIResource) (x : string) :
  HasRelease o x = true ↔ x ∈ o.(Releases).
Proof. apply range_contains_iff. Qed.

End Resource.
