(* ===== verification/APIVersion.v ===== *)
(** * [APIVersion]: one version of an API group

    The record of [types.go] lines 52-58 and its method [HasRelease]
    (lines 60-68), the same [range] scan as [APIResource.HasRelease] on
    the version's own [Releases]. *)

From S2P Require Import Prelude RangeLoop APIResource.

Module Version.

Record APIVersion := mkAPIVersion {
  Version : string;
  Archived : bool;
  Releases : list string;
  ReleasesOfInterest : list string;
  Resources : list Resource.APIResource
}.

#[global] Instance APIVersion_eq_dec : EqDecision APIVersion.
Proof. solve_decision. Defined.

(** [for _, r := range o.Releases { if r == release { return true } }
    return false] *)
Definition HasRelease (o : APIVersion) (release : string) : bool :=
  range_return (λ r, String.eqb r release) (λ _, true) false o.(Releases).

(** C7: [HasRelease] answers [true] exactly for the release strings that
    occur, by exact string equality, in the version's [Releases]. *)
Theorem APIVersion_HasRelease_iff (o : APIVersion) (x : string) :
  HasRelease o x = true ↔ x ∈ o.(Releases).
Proof. apply range_contains_iff. Qed.

Example HasRelease_examples :
  let o := mkAPIVersion "v1" false ["1.26"; "1.27"] [] [] in
  HasRelease o "1.26" = true ∧ HasRelease o "1.28" = false ∧ HasRelease o "" = false.
Proof. split_and!; reflexivity. Qed.

End Version.
