(* ===== verification/APIGroup.v ===== *)
(** * [APIGroup]: a named collection of API versions

    The record of [types.go] lines 38-44 and its method
    [PreferredVersion] (lines 48-50), the Go map index
    [o.PreferredVersions[release]]: the mapped string, or the zero string
    [""] for an absent key (also when the map is nil). *)

From S2P Require Import Prelude APIResource APIVersion.

Module Group.

Record APIGroup := mkAPIGroup {
  Name : string;
  Archived : bool;
  PreferredVersions : gmap string string;
  ReleasesOfInterest : list string;
  APIVersions : list Version.APIVersion
}.

#[global] Instance APIGroup_eq_dec : EqDecision APIGroup.
Proof. solve_decision. Defined.

(** [return o.PreferredVersions[release]] *)
Definition PreferredVersion (o : APIGroup) (release : string) : string :=
  o.(PreferredVersions).[release].

(** The group of §8 of the spec: ["1.27"] and ["1.28"] prefer ["v1"]. *)
Definition example_group : APIGroup :=
  mkAPIGroup "apps" false {[ "1.27" := "v1"; "1.28" := "v1" ]} [] [].

(** C9: [PreferredVersion] returns the string the map holds for the
    release, and [""] when the release is not a key of the map (a nil map
    included). *)
Theorem PreferredVersion_lookup (o : APIGroup) (release : string) :
  (∀ v, o.(PreferredVersions) !! release = Some v → PreferredVersion o release = v) ∧
  (o.(PreferredVersions) !! release = None → PreferredVersion o release = "").
Proof. unfold PreferredVersion. split; [intros v|]; eauto with timeline. Qed.

(** C10: [PreferredVersion] returns [""] exactly when the release is
    absent or explicitly mapped to [""]: the two cases are not told
    apart. *)
Theorem PreferredVersion_empty_iff (o : APIGroup) (release : string) :
  PreferredVersion o release = "" ↔
  o.(PreferredVersions) !! release = None ∨ o.(PreferredVersions) !! release = Some "".
Proof.
  unfold PreferredVersion, map_index.
  destruct (_ !! release) as [v|]; simpl.
  - split; [intros ->; by right|by intros [?|[= ->]]].
  - split; [by left|done].
Qed.

Lemma PreferredVersion_lookup_witness :
  PreferredVersion example_group "1.28" = "v1" ∧ PreferredVersion example_group "1.29" = "".
Proof.
  destruct (PreferredVersion_lookup example_group "1.28") as [Hs _].
  destruct (PreferredVersion_lookup example_group "1.29") as [_ Hn].
  split; [apply Hs; reflexivity|apply Hn; reflexivity].
Defined.

End Group.
