(* ===== verification/Timeline.v ===== *)
(** * [Timeline]: the root aggregate and its release lookups

    The record of [types.go] lines 8-11, [Timeline.ReleaseMetadata]
    (lines 24-32: the first release whose [Version] equals the argument,
    or [ReleaseMetadata{}]) and [Timeline.HasRelease] (lines 34-36: the
    returned [Version] is not [""]).

    Beside the code, two specifications of the lookup: [find_release], the
    option-valued "first release with this version" that makes the
    not-found case explicit, and [release_index], a map from version to
    release built once from [Releases] with the first entry winning.  The
    refinement theorems say the linear scan is the specification with
    [ReleaseMetadata{}] for [None], and is the Go index [index[v]] of the
    map. *)

From S2P Require Import Prelude RangeLoop Release APIResource APIVersion APIGroup.

Module TL.

Record Timeline := mkTimeline {
  APIGroups : list Group.APIGroup;
  Releases : list Release.ReleaseMetadata
}.

(** The test of the loop in [ReleaseMetadata]: [r.Version == release]. *)
Definition version_is (release : string) (r : Release.ReleaseMetadata) : bool :=
  String.eqb (Release.Version r) release.

(** [for _, r := range o.Releases { if r.Version == release { return r } }
    return ReleaseMetadata{}] *)
Definition ReleaseMetadata (o : Timeline) (release : string) : Release.ReleaseMetadata :=
  range_return (version_is release) (λ r, r) Release.ReleaseMetadata_zero o.(Releases).

(** [return o.ReleaseMetadata(release).Version != ""] *)
Definition HasRelease (o : Timeline) (release : string) : bool :=
  negb (String.eqb (Release.Version (ReleaseMetadata o release)) "").

(** ** Specifications *)

(** The first release with version [v], [None] when there is none. *)
Definition find_release (rs : list Release.ReleaseMetadata) (v : string)
    : option Release.ReleaseMetadata :=
  snd <$> list_find (λ r, Release.Version r = v) rs.

(** A lookup table from version to release, built once; an earlier entry
    of the slice overrides a later one with the same version. *)
Definition release_index (rs : list Release.ReleaseMetadata)
    : gmap string Release.ReleaseMetadata :=
  foldr (λ r m, <[Release.Version r := r]> m) ∅ rs.

(** The uniqueness of versions that §3 of the spec expects of
    [Releases], and their being non-empty, which the sentinel needs. *)
Definition releases_wf (rs : list Release.ReleaseMetadata) : Prop :=
  NoDup (Release.Version <$> rs) ∧ Forall (λ r, Release.Version r ≠ "") rs.

#[global] Instance releases_wf_dec rs : Decision (releases_wf rs).
Proof. unfold releases_wf. apply _. Defined.

(** ** Example data *)

(** A release record with the given version and archived flag. *)
Definition example_release (v : string) (archived : bool) : Release.ReleaseMetadata :=
  Release.mkReleaseMetadata v true true archived true (mkTime 0 0) None "".

(** The timeline of §8 of the spec. *)
Definition example_timeline : Timeline :=
  mkTimeline [] [example_release "1.27" false; example_release "1.28" false].

(** The same releases followed by a second, archived, ["1.28"]. *)
Definition example_timeline_dup : Timeline :=
  mkTimeline [] [example_release "1.27" false; example_release "1.28" false;
                 example_release "1.28" true].

(** ** Lemmas on the scan *)

Lemma version_is_true v r : version_is v r = true ↔ Release.Version r = v.
Proof. apply str_eqb_true. Qed.

Lemma version_is_false v r : version_is v r = false ↔ Release.Version r ≠ v.
Proof. apply str_eqb_false. Qed.

Lemma ReleaseMetadata_find (o : Timeline) v :
  ReleaseMetadata o v = default Release.ReleaseMetadata_zero (find_release o.(Releases) v).
Proof.
  unfold ReleaseMetadata, find_release.
  rewrite (range_return_list_find _ _ _ (λ r, Release.Version r = v));
    [|apply version_is_true].
  by destruct (list_find _ _) as [[]|].
Qed.

Lemma find_release_Some rs v r :
  find_release rs v = Some r → r ∈ rs ∧ Release.Version r = v.
Proof.
  unfold find_release. intros ([i r'] & Hf & [= <-])%fmap_Some.
  apply list_find_Some in Hf as (Hi & Hv & _). split; [|done].
  by eapply list_elem_of_lookup_2.
Qed.

Lemma find_release_None rs v :
  find_release rs v = None ↔ ∀ r, r ∈ rs → Release.Version r ≠ v.
Proof. unfold find_release. by rewrite fmap_None, list_find_None, Forall_forall. Qed.

Lemma find_release_is_Some rs v r :
  r ∈ rs → Release.Version r = v → is_Some (find_release rs v).
Proof.
  intros Hr Hv. destruct (find_release rs v) eqn:Hf; [done|].
  by destruct (proj1 (find_release_None rs v) Hf r).
Qed.

Lemma release_index_lookup rs v : release_index rs !! v = find_release rs v.
Proof.
  unfold find_release. induction rs as [|r rs IH]; simpl; [done|].
  rewrite lookup_insert. case_decide; [done|].
  rewrite IH. by destruct (list_find _ rs) as [[]|].
Qed.

Lemma HasRelease_find (o : Timeline) v :
  HasRelease o v = true ↔ v ≠ "" ∧ is_Some (find_release o.(Releases) v).
Proof.
  unfold HasRelease. rewrite ReleaseMetadata_find, str_neqb_true.
  destruct (find_release _ v) as [r|] eqn:Hf; simpl.
  - apply find_release_Some in Hf as [_ <-]. split; [|intros []]; eauto.
  - split; [done|]. by intros [_ []%is_Some_None].
Qed.

Lemma find_release_elem rs r :
  NoDup (Release.Version <$> rs) → r ∈ rs → find_release rs (Release.Version r) = Some r.
Proof.
  intros Hnd Hr.
  destruct (find_release_is_Some rs (Release.Version r) r Hr) as [r' Hf]; [done|].
  rewrite Hf. apply find_release_Some in Hf as [Hr' Hv]. f_equal.
  by eapply NoDup_fmap_agree.
Qed.

(** ** Behaviour of [ReleaseMetadata] *)

(** C1: [ReleaseMetadata] returns the first release of the slice whose
    [Version] equals the argument: when every release before [r] has
    another version and [r] has version [v], the result is [r], whatever
    follows [r] (duplicates included). *)
Theorem ReleaseMetadata_first_match (o : Timeline) (pre post : list Release.ReleaseMetadata)
    (r : Release.ReleaseMetadata) (v : string) :
  o.(Releases) = pre ++ r :: post →
  Forall (λ r', Release.Version r' ≠ v) pre →
  Release.Version r = v →
  ReleaseMetadata o v = r.
Proof.
  intros Hrs Hpre Hr. unfold ReleaseMetadata. rewrite Hrs.
  apply range_return_first; [|by apply version_is_true].
  eapply Forall_impl; [exact Hpre|]. intros ?. apply version_is_false.
Qed.

(** C2: when no release has version [v], [ReleaseMetadata] returns the
    zero value [ReleaseMetadata{}] and [HasRelease] returns [false]. *)
Theorem ReleaseMetadata_not_found (o : Timeline) (v : string) :
  (∀ r, r ∈ o.(Releases) → Release.Version r ≠ v) →
  ReleaseMetadata o v = Release.ReleaseMetadata_zero ∧ HasRelease o v = false.
Proof.
  intros Hnone. unfold HasRelease, ReleaseMetadata.
  rewrite range_return_none; [split; reflexivity|].
  apply Forall_forall. intros r Hr. apply version_is_false. by apply Hnone.
Qed.

(** C4: [HasRelease ""] is [false] on every timeline: the scan may find
    a release whose [Version] is [""], but that is the sentinel value of
    "not found". *)
Theorem HasRelease_empty (o : Timeline) : HasRelease o "" = false.
Proof.
  apply not_true_is_false. rewrite HasRelease_find. by intros [? _].
Qed.

(** C3: [HasRelease v] is [true] exactly when [v] is not empty and some
    release of the timeline has version [v]. *)
Theorem Timeline_HasRelease_iff (o : Timeline) (v : string) :
  HasRelease o v = true ↔ v ≠ "" ∧ ∃ r, r ∈ o.(Releases) ∧ Release.Version r = v.
Proof.
  rewrite HasRelease_find. split; intros [Hne Hf]; split; try done.
  - destruct Hf as [r (? & ?)%find_release_Some]. eauto.
  - destruct Hf as [r [Hr Hv]]. by eapply find_release_is_Some.
Qed.

(** C5: the scan refines the option-valued specification: [ReleaseMetadata]
    is [find_release] with [ReleaseMetadata{}] for [None], and
    [HasRelease] is "found, and the version asked for is not empty". *)
Theorem ReleaseMetadata_refines_find (o : Timeline) (v : string) :
  ReleaseMetadata o v = default Release.ReleaseMetadata_zero (find_release o.(Releases) v) ∧
  (HasRelease o v = true ↔ v ≠ "" ∧ is_Some (find_release o.(Releases) v)).
Proof. split; [apply ReleaseMetadata_find|apply HasRelease_find]. Qed.

(** C6: the linear scan equals the Go map index [index[v]] of the lookup
    table built once from [Releases] (first entry wins), the zero
    [ReleaseMetadata{}] for an absent key included. *)
Theorem ReleaseMetadata_index (o : Timeline) (v : string) :
  ReleaseMetadata o v = (release_index o.(Releases)).[v].
Proof.
  rewrite ReleaseMetadata_find. unfold map_index. by rewrite release_index_lookup.
Qed.

(** C11: when versions are unique, looking a release up by its own
    version gives the release back. *)
Theorem ReleaseMetadata_roundtrip (o : Timeline) (r : Release.ReleaseMetadata) :
  NoDup (Release.Version <$> o.(Releases)) → r ∈ o.(Releases) →
  ReleaseMetadata o (Release.Version r) = r.
Proof. intros Hnd Hr. by rewrite ReleaseMetadata_find, find_release_elem. Qed.

(** C12: the result of [ReleaseMetadata v] is either the zero value or a
    release of the timeline whose version is [v]. *)
Theorem ReleaseMetadata_result (o : Timeline) (v : string) :
  ReleaseMetadata o v = Release.ReleaseMetadata_zero ∨
  (ReleaseMetadata o v ∈ o.(Releases) ∧ Release.Version (ReleaseMetadata o v) = v).
Proof.
  rewrite ReleaseMetadata_find.
  destruct (find_release _ v) as [r|] eqn:Hf; [right|by left].
  by apply find_release_Some.
Qed.

(** C13: when versions are unique, the order of [Releases] does not
    matter: a permutation of the slice gives the same answers. *)
Theorem ReleaseMetadata_perm (o o' : Timeline) (v : string) :
  NoDup (Release.Version <$> o.(Releases)) → o.(Releases) ≡ₚ o'.(Releases) →
  ReleaseMetadata o v = ReleaseMetadata o' v ∧ HasRelease o v = HasRelease o' v.
Proof.
  intros Hnd Hperm.
  assert (ReleaseMetadata o v = ReleaseMetadata o' v) as Heq.
  { apply range_return_perm; [|done].
    intros x y Hx Hy Hvx%version_is_true Hvy%version_is_true.
    eapply NoDup_fmap_agree; [exact Hnd|exact Hx|exact Hy|congruence]. }
  unfold HasRelease. by rewrite Heq.
Qed.

(** C14: appending releases after the slice (as a loader that adds later
    releases does) changes neither [ReleaseMetadata v] nor
    [HasRelease v] for a version [v] the timeline already has: the scan
    returns at the first match and never reads the appended entries. *)
Theorem ReleaseMetadata_append (o : Timeline) (extra : list Release.ReleaseMetadata)
    (v : string) :
  (∃ r, r ∈ o.(Releases) ∧ Release.Version r = v) →
  ReleaseMetadata (mkTimeline o.(APIGroups) (o.(Releases) ++ extra)) v = ReleaseMetadata o v ∧
  HasRelease (mkTimeline o.(APIGroups) (o.(Releases) ++ extra)) v = HasRelease o v.
Proof.
  intros (r & Hr & Hv). unfold HasRelease, ReleaseMetadata. simpl.
  rewrite range_return_app_match; [done|].
  exists r. split; [done|by apply version_is_true].
Qed.

(** C15: when every release has a non-empty version, [HasRelease v] is
    membership of [v] among the versions of [Releases]. *)
Theorem HasRelease_nonempty_iff (o : Timeline) (v : string) :
  Forall (λ r, Release.Version r ≠ "") o.(Releases) →
  HasRelease o v = true ↔ v ∈ Release.Version <$> o.(Releases).
Proof.
  intros Hne. rewrite HasRelease_find, list_elem_of_fmap. split.
  - intros [_ [r (? & ?)%find_release_Some]]. eauto.
  - intros [r [-> Hr]]. split; [by eapply Forall_forall in Hne|].
    by eapply find_release_is_Some.
Qed.

(** ** Witnesses *)

Lemma ReleaseMetadata_first_match_witness :
  ReleaseMetadata example_timeline_dup "1.28" = example_release "1.28" false.
Proof.
  apply (ReleaseMetadata_first_match example_timeline_dup
           [example_release "1.27" false] [example_release "1.28" true]);
    [reflexivity|decide_concrete|reflexivity].
Defined.

Lemma ReleaseMetadata_not_found_witness :
  ReleaseMetadata example_timeline "1.29" = Release.ReleaseMetadata_zero ∧
  HasRelease example_timeline "1.29" = false.
Proof.
  apply ReleaseMetadata_not_found. apply Forall_forall. decide_concrete.
Defined.

Lemma ReleaseMetadata_roundtrip_witness :
  ReleaseMetadata example_timeline "1.28" = example_release "1.28" false.
Proof.
  apply (ReleaseMetadata_roundtrip example_timeline (example_release "1.28" false));
    decide_concrete.
Defined.

Lemma ReleaseMetadata_perm_witness :
  ReleaseMetadata example_timeline "1.27" =
    ReleaseMetadata (mkTimeline [] (reverse example_timeline.(Releases))) "1.27" ∧
  HasRelease example_timeline "1.27" =
    HasRelease (mkTimeline [] (reverse example_timeline.(Releases))) "1.27".
Proof. apply ReleaseMetadata_perm; decide_concrete. Defined.

Lemma ReleaseMetadata_append_witness :
  ReleaseMetadata (mkTimeline [] (example_timeline.(Releases) ++ [example_release "1.28" true])) "1.28" =
    ReleaseMetadata example_timeline "1.28" ∧
  HasRelease (mkTimeline [] (example_timeline.(Releases) ++ [example_release "1.28" true])) "1.28" =
    HasRelease example_timeline "1.28".
Proof.
  apply (ReleaseMetadata_append example_timeline [example_release "1.28" true] "1.28").
  exists (example_release "1.28" false). split; [decide_concrete|reflexivity].
Defined.

Lemma HasRelease_nonempty_iff_witness :
  HasRelease example_timeline "1.28" = true ↔ "1.28" ∈ Release.Version <$> example_timeline.(Releases).
Proof. apply HasRelease_nonempty_iff. decide_concrete. Defined.

(** ** Concrete scenarios *)

(** The scenario of §8 of the spec. *)
Example example_timeline_queries :
  HasRelease example_timeline "1.28" = true ∧
  Release.Version (ReleaseMetadata example_timeline "1.28") = "1.28" ∧
  HasRelease example_timeline "1.29" = false ∧
  ReleaseMetadata example_timeline "1.29" = Release.ReleaseMetadata_zero ∧
  HasRelease example_timeline "" = false.
Proof. split_and!; reflexivity. Qed.

(** A release whose version is [""] is what [ReleaseMetadata ""]
    returns, a record other than the zero value, while [HasRelease ""]
    reports no release (C4): the sentinel hides such a release. *)
Example empty_version_release_hidden :
  let o := mkTimeline [] [example_release "" true] in
  ReleaseMetadata o "" = example_release "" true ∧
  ReleaseMetadata o "" ≠ Release.ReleaseMetadata_zero ∧
  HasRelease o "" = false.
Proof. split_and!; [reflexivity|vm_compute; congruence|reflexivity]. Qed.

End TL.
