(* ===== verification/Queries.v ===== *)
(** * The release-presence interface and its clients

    [APIVersion.HasRelease], [APIResource.HasRelease] and
    [Timeline.HasRelease] answer the question the templating layer asks of
    each entity: "is it present in release [x]?".  The class
    [HasReleaseQuery] states what such a query promises (the answer is
    membership in a list of release identifiers); the three methods are
    its instances, and the theorems of this file are proved against the
    class and then read at each instance: answers respect equivalence of
    release lists (a [Proper] instance for setoid rewriting). *)

From S2P Require Import Prelude RangeLoop Release APIResource APIVersion APIGroup Timeline.

(** What a release-presence query promises. *)
Class HasReleaseQuery (T : Type) := {
  present_in : T → list string;
  has_release : T → string → bool;
  has_release_spec o x : has_release o x = true ↔ x ∈ present_in o
}.

(** ** The three implementations *)

#[global] Instance APIVersion_query : HasReleaseQuery Version.APIVersion := {
  present_in := Version.Releases;
  has_release := Version.HasRelease;
  has_release_spec o x := range_contains_iff (Version.Releases o) x
}.

#[global] Instance APIResource_query : HasReleaseQuery Resource.APIResource := {
  present_in := Resource.Releases;
  has_release := Resource.HasRelease;
  has_release_spec o x := range_contains_iff (Resource.Releases o) x
}.

(** A timeline is present in the non-empty versions of its releases. *)
Definition timeline_versions (o : TL.Timeline) : list string :=
  filter (λ v, v ≠ "") (Release.Version <$> o.(TL.Releases)).

Lemma Timeline_has_release_spec (o : TL.Timeline) x :
  TL.HasRelease o x = true ↔ x ∈ timeline_versions o.
Proof.
  unfold timeline_versions. rewrite TL.HasRelease_find, list_elem_of_filter, list_elem_of_fmap.
  split; intros [Hne Hf]; split; try done.
  - destruct Hf as [r (? & ?)%TL.find_release_Some]. eauto.
  - destruct Hf as [r [-> Hr]]. by eapply TL.find_release_is_Some.
Qed.

#[global] Instance Timeline_query : HasReleaseQuery TL.Timeline := {
  present_in := timeline_versions;
  has_release := TL.HasRelease;
  has_release_spec := Timeline_has_release_spec
}.

(** ** Clients, against the interface *)

Section clients.
Context `{HasReleaseQuery T}.

(** Two entities are equivalent when they list the same releases. *)
Definition same_releases (a b : T) : Prop :=
  ∀ x, x ∈ present_in a ↔ x ∈ present_in b.

#[global] Instance same_releases_equiv : Equivalence same_releases.
Proof.
  split; unfold same_releases; [done|intros a b Hab x; by rewrite Hab|].
  intros a b c Hab Hbc x. by rewrite Hab, Hbc.
Qed.

#[global] Instance has_release_proper : Proper (same_releases ==> eq ==> eq) has_release.
Proof.
  intros a b Hab x ? <-. apply Bool.eq_iff_eq_true.
  by rewrite !has_release_spec, (Hab x).
Qed.

End clients.

(** C16: the answer of [APIVersion.HasRelease] depends only on the set of
    releases listed, not on their order or repetitions: by setoid
    rewriting with [has_release_proper]. *)
Theorem APIVersion_HasRelease_same_releases (o o' : Version.APIVersion) (x : string) :
  (∀ r, r ∈ Version.Releases o ↔ r ∈ Version.Releases o') →
  Version.HasRelease o x = Version.HasRelease o' x.
Proof.
  intros Hs. change (has_release o x = has_release o' x).
  assert (same_releases o o') as Hs' by exact Hs. by rewrite Hs'.
Qed.

(** ** Examples *)

Definition example_version (rels : list string) (res : list Resource.APIResource)
    : Version.APIVersion :=
  Version.mkAPIVersion "v1" false rels [] res.

Lemma APIVersion_HasRelease_same_releases_witness :
  Version.HasRelease (example_version ["1.26"; "1.27"] []) "1.26" =
  Version.HasRelease (example_version ["1.27"; "1.26"; "1.27"] []) "1.26".
Proof.
  apply APIVersion_HasRelease_same_releases. intros r. simpl.
  rewrite !elem_of_cons, elem_of_nil. tauto.
Defined.
